(* ===================================================================== *)
(* scripts/batch_export_skills.py: the batch export of builtin skills.   *)
(*                                                                       *)
(* A shallow embedding of the script: Python's str as a list of code     *)
(* points, the str methods the script calls (splitlines, strip,          *)
(* startswith, split), the loop that selects the skills to export, and   *)
(* main as a state/exception computation over an abstract operating      *)
(* system that answers every subprocess.run.                             *)
(* ===================================================================== *)

From Stdlib Require Import NArith ZArith String Ascii DecimalString.
From stdpp Require Import base tactics option list.

Local Open Scope list_scope.

(* --------------------------------------------------------------------- *)
(* Python str                                                            *)
(* --------------------------------------------------------------------- *)

Module Py.

(* A str is a sequence of Unicode code points. *)
Definition char := N.
Definition str := list char.

(* A literal of the source, written as a Rocq string of ASCII characters. *)
Fixpoint lit (s : string) : str :=
  match s with
  | EmptyString => []
  | String a s' => N_of_ascii a :: lit s'
  end.

(* str.isspace on one character (Py_UNICODE_ISSPACE): bidirectional class
   WS, B or S, or general category Zs. *)
Definition isspace (c : char) : bool :=
  ((9 <=? c) && (c <=? 13) || (28 <=? c) && (c <=? 32)
   || (c =? 133) || (c =? 160) || (c =? 5760)
   || (8192 <=? c) && (c <=? 8202)
   || (c =? 8232) || (c =? 8233) || (c =? 8239) || (c =? 8287)
   || (c =? 12288))%N.

(* The line boundaries of str.splitlines (Py_UNICODE_ISLINEBREAK):
   \n \v \f \r \x1c \x1d \x1e \x85 \u2028 \u2029. *)
Definition islinebreak (c : char) : bool :=
  ((10 <=? c) && (c <=? 13) || (28 <=? c) && (c <=? 30)
   || (c =? 133) || (c =? 8232) || (c =? 8233))%N.

Definition CR : char := 13%N.
Definition LF : char := 10%N.

(* `not s`: a str is false exactly when it is empty. *)
Definition falsy (s : str) : bool :=
  match s with [] => true | _ :: _ => false end.

(* s == t on str. *)
Fixpoint eqb (s t : str) : bool :=
  match s, t with
  | [], [] => true
  | a :: s', b :: t' => (a =? b)%N && eqb s' t'
  | _, _ => false
  end.

(* s.startswith(prefix) *)
Fixpoint startswith (s prefix : str) : bool :=
  match prefix, s with
  | [], _ => true
  | p :: prefix', c :: s' => (c =? p)%N && startswith s' prefix'
  | _ :: _, [] => false
  end.

(* s.lstrip(), s.rstrip() and s.strip() with no argument. *)
Fixpoint lstrip (s : str) : str :=
  match s with
  | [] => []
  | c :: s' => if isspace c then lstrip s' else s
  end.

Definition rstrip (s : str) : str := rev (lstrip (rev s)).

Definition strip (s : str) : str := rstrip (lstrip s).

(* s.split() with no argument: the maximal runs of non-whitespace.  [cur]
   holds the characters of the run being read, last one first. *)
Fixpoint split_from (cur : str) (s : str) : list str :=
  match s with
  | [] => match cur with [] => [] | _ :: _ => [rev cur] end
  | c :: s' =>
      if isspace c then
        match cur with
        | [] => split_from [] s'
        | _ :: _ => rev cur :: split_from [] s'
        end
      else split_from (c :: cur) s'
  end.

Definition split (s : str) : list str := split_from [] s.

(* s.splitlines(): the text cut at every line boundary, the boundaries
   dropped, \r\n counted as one boundary, and no empty last line after a
   final boundary. *)
Fixpoint splitlines_from (cur : str) (s : str) : list str :=
  match s with
  | [] => match cur with [] => [] | _ :: _ => [rev cur] end
  | c :: s' =>
      if islinebreak c then
        rev cur ::
          match s' with
          | c' :: s'' =>
              if (c =? CR)%N && (c' =? LF)%N then splitlines_from [] s''
              else splitlines_from [] s'
          | [] => splitlines_from [] s'
          end
      else splitlines_from (c :: cur) s'
  end.

Definition splitlines (s : str) : list str := splitlines_from [] s.

(* str(n) for a non-negative int n, as an f-string renders it. *)
Definition str_of_nat (n : nat) : str :=
  lit (NilZero.string_of_uint (Nat.to_uint n)).

End Py.

Import Py.

(* --------------------------------------------------------------------- *)
(* The selection loop of main (lines 22-45)                              *)
(* --------------------------------------------------------------------- *)

(* What lines 41 and 42 bind for a data row. *)
Record SkillRecord := mkSkill { name : str; origin : str }.

(* parts[i], for an index the caller knows to be in range. *)
Definition item (parts : list str) (i : nat) : str := nth i parts [].

(* One turn of `for line in result.stdout.splitlines():`, on the list
   skills_to_export; each `continue` leaves the list as it is. *)
Definition loop_body (skills_to_export : list str) (line : str) : list str :=
  let line := strip line in
  if falsy line then skills_to_export else
  if startswith line (lit "Cratos Skills") then skills_to_export else
  if startswith line (lit "-----") then skills_to_export else
  let parts := split line in
  if (length parts <? 4)%nat then skills_to_export else
  let name := item parts 1 in
  let origin := item parts 3 in
  if eqb origin (lit "built") then skills_to_export ++ [name]
  else skills_to_export.

(* Lines 22-45: skills_to_export after the loop over the listing. *)
Definition select_skills (stdout : str) : list str :=
  fold_left loop_body (splitlines stdout) [].

(* The same turn read as the two stages the design names: lines 25-42 make
   a record of a data row or skip the line, lines 44-45 keep the name of a
   record whose origin is the literal built. *)
Definition parse_line (line : str) : option SkillRecord :=
  let line := strip line in
  if falsy line then None else
  if startswith line (lit "Cratos Skills") then None else
  if startswith line (lit "-----") then None else
  let parts := split line in
  if (length parts <? 4)%nat then None else
  Some {| name := item parts 1; origin := item parts 3 |}.

Definition is_built (r : SkillRecord) : bool := eqb (origin r) (lit "built").

Definition filter_step (skills_to_export : list str) (r : SkillRecord) : list str :=
  if is_built r then skills_to_export ++ [name r] else skills_to_export.

Definition output_parser (stdout : str) : list SkillRecord :=
  omap parse_line (splitlines stdout).

Definition origin_filter (records : list SkillRecord) : list SkillRecord :=
  List.filter is_built records.

Definition export_batch (records : list SkillRecord) : list str :=
  fold_left filter_step records [].

(* --------------------------------------------------------------------- *)
(* Child processes, printing and exceptions                              *)
(* --------------------------------------------------------------------- *)

(* What subprocess.run returns. *)
Record CompletedProcess := mkCompleted {
  returncode : Z;
  stdout : str;
  stderr : str
}.

(* What a run of the script does that can be seen from outside: a line
   printed, or a child process run to its end (with the check flag it was
   run under and what the child returned). *)
Inductive Event :=
  | Print (text : str)
  | Run (argv : list str) (check : bool) (result : CompletedProcess).

(* The one exception the script's own calls raise. *)
Inductive Exn :=
  | CalledProcessError (rc : Z) (cmd : list str).

Inductive Result (A : Type) :=
  | Ok (a : A)
  | Raise (e : Exn).
Arguments Ok {A} a.
Arguments Raise {A} e.

Definition lines_of (log : list Event) : list str :=
  omap (fun e => match e with Print t => Some t | Run _ _ _ => None end) log.

Definition invocations (log : list Event) : list (list str) :=
  omap (fun e => match e with Run argv _ _ => Some argv | Print _ => None end) log.

(* A child that was run with check=True and left with a non-zero status. *)
Definition failed_check (e : Event) : bool :=
  match e with
  | Run _ true r => negb (returncode r =? 0)%Z
  | _ => false
  end.

Definition build_cmd : list str :=
  map lit ["uv"; "run"; "cargo"; "build"]%string.

Definition list_cmd : list str :=
  map lit ["uv"; "run"; "cargo"; "run"; "--bin"; "cratos"; "--";
           "skill"; "list"; "--active"]%string.

Definition export_cmd (skill : str) : list str :=
  map lit ["uv"; "run"; "cargo"; "run"; "--bin"; "cratos"; "--";
           "skill"; "export"; "--markdown"]%string ++ [skill].

(* The part of an export command that starts the tool, up to the -- that
   ends cargo's own options; what follows it is handed to cratos. *)
Definition cratos_launcher : list str :=
  map lit ["uv"; "run"; "cargo"; "run"; "--bin"; "cratos"; "--"]%string.

Section Process.

(* The operating system as the script meets it: running a command in some
   state of the world gives the completed process and the world after it.
   Nothing is assumed about either.  This is a call of subprocess.run that
   starts its child and gets its result; a call that raises before that or
   instead of it (no uv to start, a NUL in the argv, output that does not
   decode) has no counterpart here, so what is proved of a run is proved
   of the runs whose calls all come back, and the theorems say by
   hypothesis which calls they rely on. *)
Variable World : Type.
Variable spawn : list str -> World -> CompletedProcess * World.

Record State := mkState { world : World; log : list Event }.

Definition M (A : Type) : Type := State -> Result A * State.

Definition ret {A} (a : A) : M A := fun st => (Ok a, st).

Definition bind {A B} (m : M A) (f : A -> M B) : M B :=
  fun st =>
    match m st with
    | (Ok a, st') => f a st'
    | (Raise e, st') => (Raise e, st')
    end.

Notation "x <- m ;; k" := (bind m (fun x => k))
  (at level 100, m at next level, right associativity).
Notation "m ;; k" := (bind m (fun _ => k))
  (at level 100, right associativity).

(* print(text) *)
Definition print (text : str) : M unit :=
  fun st => (Ok tt, {| world := world st; log := log st ++ [Print text] |}).

(* subprocess.run(argv, check=check, ...) for a child that is started and
   runs to its end; with check=True a non-zero status raises
   CalledProcessError.  The other exceptions of the call are not in the
   model (see spawn). *)
Definition subprocess_run (argv : list str) (check : bool) : M CompletedProcess :=
  fun st =>
    let (r, w) := spawn argv (world st) in
    let st' := {| world := w; log := log st ++ [Run argv check r] |} in
    if check && negb (returncode r =? 0)%Z
    then (Raise (CalledProcessError (returncode r) argv), st')
    else (Ok r, st').

(* Lines 49-52. *)
Fixpoint export_loop (skills_to_export : list str) : M unit :=
  match skills_to_export with
  | [] => ret tt
  | skill :: rest =>
      print (lit "Exporting " ++ skill ++ lit "...") ;;
      subprocess_run (export_cmd skill) true ;;
      export_loop rest
  end.

(* Lines 47-54: what main does with the list once the loop has filled it. *)
Definition export_phase (skills_to_export : list str) : M unit :=
  print (lit "Found " ++ str_of_nat (length skills_to_export)
         ++ lit " builtin skills to export.") ;;
  export_loop skills_to_export ;;
  print (lit "Batch export complete.").

Definition main : M unit :=
  print (lit "Building Cratos...") ;;
  subprocess_run build_cmd true ;;
  print (lit "Fetching active skills...") ;;
  result <- subprocess_run list_cmd false ;;
  if negb (returncode result =? 0)%Z then
    print (lit "Error listing skills:") ;;
    print (stderr result) ;;
    ret tt
  else
    let skills_to_export := select_skills (stdout result) in
    export_phase skills_to_export.

(* The exit status of the interpreter that ran a module to its end: 0, or
   1 when an exception other than SystemExit reached the top level. *)
Definition exit_status {A} (r : Result A) : Z :=
  match r with
  | Ok _ => 0
  | Raise _ => 1
  end%Z.

(* `python batch_export_skills.py` in a world: the module calls main()
   under the __main__ guard and catches nothing. *)
Definition script (w : World) : Z * list Event :=
  let (r, st) := main {| world := w; log := [] |} in
  (exit_status r, log st).

(* The statuses the commands would leave with if they were run one after
   the other from w, none of them checked. *)
Fixpoint statuses (cmds : list (list str)) (w : World) : list Z :=
  match cmds with
  | [] => []
  | c :: cmds' => returncode (spawn c w).1 :: statuses cmds' (spawn c w).2
  end.

Fixpoint world_after (cmds : list (list str)) (w : World) : World :=
  match cmds with
  | [] => w
  | c :: cmds' => world_after cmds' (spawn c w).2
  end.

End Process.

Arguments world {World} s.
Arguments log {World} s.
Arguments mkState {World} world log.
Arguments ret {World A} a st.
Arguments bind {World A B} m f st.
Arguments print {World} text st.
Arguments subprocess_run {World} spawn argv check st.
Arguments export_loop {World} spawn skills_to_export st.
Arguments export_phase {World} spawn skills_to_export st.
Arguments main {World} spawn st.
Arguments script {World} spawn w.
Arguments statuses {World} spawn cmds w.
Arguments world_after {World} spawn cmds w.

(* The events a run adds to the log are in order with the law of the
   checked call: after a return, no checked child has failed; after an
   exception, the failed checked child is the last event, the exception
   carries its command and status, and no checked child failed before. *)
Definition outcome_ok {A} (events : list Event) (r : Result A) : Prop :=
  match r with
  | Ok _ => Forall (fun e => failed_check e = false) events
  | Raise (CalledProcessError rc cmd) =>
      exists before result,
        events = before ++ [Run cmd true result]
        /\ Forall (fun e => failed_check e = false) before
        /\ returncode result = rc /\ rc <> 0%Z
  end.

(* The commands main runs: the build and the exports checked, the listing
   not. *)
Definition known_event (e : Event) : Prop :=
  match e with
  | Print _ => True
  | Run argv check _ =>
      (check = true /\ (argv = build_cmd \/ exists skill, argv = export_cmd skill))
      \/ (check = false /\ argv = list_cmd)
  end.

Definition disciplined {World A} (m : M World A) : Prop :=
  forall st, exists events,
    log (m st).2 = log st ++ events
    /\ Forall known_event events
    /\ outcome_ok events (m st).1.

(* The progress line of one export. *)
Definition exporting_line (skill : str) : str :=
  lit "Exporting " ++ skill ++ lit "...".

Definition found_line (n : nat) : str :=
  lit "Found " ++ str_of_nat n ++ lit " builtin skills to export.".

(* --------------------------------------------------------------------- *)
(* The vocabulary of the design document                                 *)
(* --------------------------------------------------------------------- *)

Definition header_prefix : str := lit "Cratos Skills".
Definition dash_prefix : str := lit "-----".
Definition dash : char := 45%N.

(* The tokens of a line, as line 30 computes them. *)
Definition tokens (line : str) : list str := split (strip line).

(* A separator in the words of the design document: a line composed
   solely of dash characters. *)
Definition dash_separator (line : str) : bool :=
  negb (falsy line) && forallb (fun c => (c =? dash)%N) line.

(* A well-formed data row as the design document lists its conditions:
   trimmed and non-empty, not starting with the header prefix, not a dash
   separator, at least four tokens. *)
Definition stated_row (line : str) : bool :=
  negb (falsy (strip line))
  && negb (startswith (strip line) header_prefix)
  && negb (dash_separator (strip line))
  && (4 <=? length (tokens line))%nat.

(* A data row as lines 26-31 decide it: the third test is on the first
   five characters only. *)
Definition data_row (line : str) : bool :=
  negb (falsy (strip line))
  && negb (startswith (strip line) header_prefix)
  && negb (startswith (strip line) dash_prefix)
  && (4 <=? length (tokens line))%nat.

(* The record of a data row: its second and fourth tokens. *)
Definition row_record (line : str) : SkillRecord :=
  {| name := item (tokens line) 1; origin := item (tokens line) 3 |}.

(* How often a name occurs in a batch. *)
Definition count_name (n : str) (batch : list str) : nat :=
  length (List.filter (eqb n) batch).

(* The listing of the end-to-end scenario. *)
Definition scenario_listing : str :=
  lit "Cratos Skills" ++ [LF] ++ lit "-----" ++ [LF]
  ++ lit "* alpha core built" ++ [LF]
  ++ lit "* beta core custom" ++ [LF]
  ++ lit "* gamma tool built".

(* A scripted operating system for running the model on examples: the
   results the next commands will return, in order; once they are used up
   every command succeeds and prints nothing. *)
Module Scripted.

Definition World := list CompletedProcess.

Definition done_with (rc : Z) : CompletedProcess :=
  {| returncode := rc; stdout := []; stderr := [] |}.

Definition spawn (argv : list str) (w : World) : CompletedProcess * World :=
  match w with
  | [] => (done_with 0, [])
  | r :: w' => (r, w')
  end.

End Scripted.

(* --------------------------------------------------------------------- *)
(* Vocabulary for further properties of the script                       *)
(* --------------------------------------------------------------------- *)

(* A token as split leaves it: not empty and free of whitespace. *)
Definition is_token (t : str) : Prop :=
  t <> [] /\ Forall (fun c => isspace c = false) t.

(* Rows written one after the other, each ended by \n, as a producer
   printing line by line emits them. *)
Definition unlines (rows : list str) : str :=
  flat_map (fun row => row ++ [LF]) rows.

(* --------------------------------------------------------------------- *)
(* Facts about the str methods                                           *)
(* --------------------------------------------------------------------- *)

Lemma eqb_eq (s t : str) : eqb s t = true <-> s = t.
Proof.
  revert t; induction s as [|a s IH]; intros [|b t]; simpl; try easy.
  rewrite andb_true_iff, N.eqb_eq, IH. split.
  - intros [-> ->]; reflexivity.
  - intros [= -> ->]; auto.
Qed.

Lemma falsy_nil (s : str) : falsy s = true <-> s = [].
Proof. destruct s; simpl; split; congruence. Qed.

(* lstrip cuts a run of whitespace off the front and nothing else. *)
Lemma lstrip_decompose (s : str) :
  exists ws, s = ws ++ lstrip s /\ Forall (fun c => isspace c = true) ws.
Proof.
  induction s as [|c s (ws & Hs & Hws)]; simpl.
  - exists []; split; [reflexivity | constructor].
  - destruct (isspace c) eqn:Hc.
    + exists (c :: ws); split; [simpl; congruence | constructor; assumption].
    + exists []; split; [reflexivity | constructor].
Qed.

Lemma rstrip_decompose (s : str) :
  exists ws, s = rstrip s ++ ws /\ Forall (fun c => isspace c = true) ws.
Proof.
  unfold rstrip. destruct (lstrip_decompose (rev s)) as (ws & Hs & Hws).
  exists (rev ws); split.
  - rewrite <- rev_app_distr, <- Hs, rev_involutive. reflexivity.
  - apply List.Forall_rev. exact Hws.
Qed.

Lemma split_from_app_spaces (ws s : str) :
  Forall (fun c => isspace c = true) ws ->
  split_from [] (ws ++ s) = split_from [] s.
Proof.
  induction 1 as [|c ws Hc _ IH]; simpl; [reflexivity|].
  rewrite Hc. exact IH.
Qed.

Lemma split_from_spaces_end (ws : str) :
  Forall (fun c => isspace c = true) ws ->
  forall s cur, split_from cur (s ++ ws) = split_from cur s.
Proof.
  intros Hws s. induction s as [|c s IH]; intros cur; simpl.
  - destruct Hws as [|d ws Hd Hws]; simpl; [reflexivity|].
    rewrite Hd.
    assert (Hnil : split_from [] ws = []).
    { clear -Hws. induction Hws as [|e ws He _ IH]; simpl; [reflexivity|].
      rewrite He. exact IH. }
    rewrite Hnil. reflexivity.
  - destruct (isspace c); [destruct cur|]; rewrite ?IH; reflexivity.
Qed.

(* line.strip().split() and line.split() are the same list. *)
Lemma split_strip (s : str) : split (strip s) = split s.
Proof.
  unfold split, strip.
  destruct (lstrip_decompose s) as (ws & Hs & Hws).
  destruct (rstrip_decompose (lstrip s)) as (ws' & Hs' & Hws').
  rewrite Hs at 2. rewrite (split_from_app_spaces ws _ Hws).
  rewrite Hs' at 2. rewrite (split_from_spaces_end ws' Hws'). reflexivity.
Qed.

(* A line made of dashes only is one token. *)
Lemma split_from_no_space (s : str) :
  Forall (fun c => isspace c = false) s ->
  forall cur, length (split_from cur s) <= 1.
Proof.
  induction 1 as [|c s Hc _ IH]; intros cur; simpl.
  - destruct cur; simpl; lia.
  - rewrite Hc. apply IH.
Qed.

Lemma dash_separator_one_token (s : str) :
  dash_separator s = true -> length (split s) <= 1.
Proof.
  unfold dash_separator. rewrite andb_true_iff, forallb_forall.
  intros [_ H]. apply split_from_no_space.
  apply List.Forall_forall. intros c Hc. apply H in Hc.
  apply N.eqb_eq in Hc. subst c. reflexivity.
Qed.

(* --------------------------------------------------------------------- *)
(* The selection loop, stage by stage                                    *)
(* --------------------------------------------------------------------- *)

Lemma loop_body_stages (acc : list str) (line : str) :
  loop_body acc line =
  match parse_line line with
  | Some r => filter_step acc r
  | None => acc
  end.
Proof.
  unfold loop_body, parse_line, filter_step, is_built.
  repeat match goal with |- context [if ?b then _ else _] =>
    destruct b; try reflexivity end.
Qed.

Lemma parse_line_row (line : str) :
  parse_line line = if data_row line then Some (row_record line) else None.
Proof.
  unfold parse_line, data_row, row_record, tokens, header_prefix, dash_prefix.
  destruct (falsy (strip line)); [reflexivity|].
  destruct (startswith (strip line) (lit "Cratos Skills")); [reflexivity|].
  destruct (startswith (strip line) (lit "-----")); [reflexivity|].
  cbn [negb andb].
  destruct (Nat.ltb_spec (length (split (strip line))) 4) as [H|H];
    destruct (Nat.leb_spec 4 (length (split (strip line)))) as [H'|H'];
    first [reflexivity | lia].
Qed.

Lemma fold_filter_step (rs : list SkillRecord) (acc : list str) :
  fold_left filter_step rs acc = acc ++ map name (origin_filter rs).
Proof.
  revert acc; induction rs as [|r rs IH]; intros acc; simpl.
  - rewrite app_nil_r. reflexivity.
  - rewrite IH. unfold filter_step. destruct (is_built r); simpl.
    + rewrite <- app_assoc. reflexivity.
    + reflexivity.
Qed.

Lemma fold_loop_body (lines : list str) (acc : list str) :
  fold_left loop_body lines acc
  = acc ++ map name (origin_filter (omap parse_line lines)).
Proof.
  revert acc; induction lines as [|l lines IH]; intros acc; simpl.
  - rewrite app_nil_r. reflexivity.
  - rewrite IH, loop_body_stages. destruct (parse_line l) as [r|]; simpl.
    + unfold filter_step. destruct (is_built r); simpl.
      * rewrite <- app_assoc. reflexivity.
      * reflexivity.
    + reflexivity.
Qed.

(* Lines 22-45 are the parser followed by the filter. *)
Lemma select_skills_stages (text : str) :
  select_skills text = export_batch (output_parser text).
Proof.
  unfold select_skills, export_batch, output_parser.
  rewrite fold_loop_body, fold_filter_step. reflexivity.
Qed.

Lemma omap_parse_line (lines : list str) :
  omap parse_line lines = map row_record (List.filter data_row lines).
Proof.
  induction lines as [|l lines IH]; [reflexivity|].
  change (omap parse_line (l :: lines))
    with (match parse_line l with
          | Some r => r :: omap parse_line lines
          | None => omap parse_line lines
          end).
  rewrite IH, parse_line_row. cbn [List.filter].
  destruct (data_row l); reflexivity.
Qed.

Lemma filter_sublist {A} (f : A -> bool) (l : list A) :
  sublist (List.filter f l) l.
Proof.
  induction l as [|x l IH]; simpl; [constructor|].
  destruct (f x); [apply sublist_skip | apply sublist_cons]; exact IH.
Qed.

Lemma origin_filter_In (rs : list SkillRecord) (r : SkillRecord) :
  In r (origin_filter rs) <-> In r rs /\ origin r = lit "built".
Proof.
  unfold origin_filter. rewrite filter_In. unfold is_built.
  rewrite eqb_eq. reflexivity.
Qed.

Lemma count_name_batch (n : str) (rs : list SkillRecord) :
  count_name n (map name (origin_filter rs))
  = length (List.filter (fun r => is_built r && eqb n (name r)) rs).
Proof.
  unfold count_name, origin_filter.
  induction rs as [|r rs IH]; simpl; [reflexivity|].
  destruct (is_built r); simpl; [|exact IH].
  destruct (eqb n (name r)); simpl; rewrite IH; reflexivity.
Qed.

(* A line the parser skips leaves the whole loop as if it were not there. *)
Lemma skipped_line_absent (line : str) :
  parse_line line = None ->
  forall before after acc,
    fold_left loop_body (before ++ line :: after) acc
    = fold_left loop_body (before ++ after) acc.
Proof.
  intros Hnone before after acc.
  rewrite !fold_left_app. simpl.
  rewrite (loop_body_stages _ line), Hnone. reflexivity.
Qed.

Lemma parse_line_None_blank (line : str) : strip line = [] -> parse_line line = None.
Proof. intros H. unfold parse_line. rewrite H. reflexivity. Qed.

Lemma parse_line_None_header (line : str) :
  startswith (strip line) header_prefix = true -> parse_line line = None.
Proof.
  intros H. unfold parse_line. unfold header_prefix in H. rewrite H.
  destruct (falsy (strip line)); reflexivity.
Qed.

Lemma parse_line_None_dashes (line : str) :
  startswith (strip line) dash_prefix = true -> parse_line line = None.
Proof.
  intros H. unfold parse_line. unfold dash_prefix in H. rewrite H.
  destruct (falsy (strip line)); [reflexivity|].
  destruct (startswith (strip line) (lit "Cratos Skills")); reflexivity.
Qed.

Lemma parse_line_None_short (line : str) :
  length (split line) < 4 -> parse_line line = None.
Proof.
  intros H. rewrite parse_line_row. unfold data_row, tokens.
  rewrite split_strip.
  destruct (Nat.leb_spec 4 (length (split line))) as [H'|H']; [lia|].
  rewrite andb_false_r. reflexivity.
Qed.

Lemma parse_line_Some_tokens (line : str) (r : SkillRecord) :
  parse_line line = Some r -> 4 <= length (split line).
Proof.
  intros H. destruct (Nat.le_gt_cases 4 (length (split line))) as [H'|H'];
    [exact H'|].
  rewrite (parse_line_None_short line H') in H. discriminate.
Qed.

(* --------------------------------------------------------------------- *)
(* The parser                                                            *)
(* --------------------------------------------------------------------- *)

Example splitlines_boundaries :
  splitlines (lit "a" ++ [LF; CR; LF] ++ lit "b c" ++ [CR] ++ lit "d" ++ [LF])
  = [lit "a"; []; lit "b c"; lit "d"].
Proof. reflexivity. Qed.

Example split_runs :
  split (lit "  * alpha   core built ")
  = [lit "*"; lit "alpha"; lit "core"; lit "built"].
Proof. reflexivity. Qed.

Example strip_both_ends : strip (lit "  a b  ") = lit "a b".
Proof. reflexivity. Qed.

Example three_token_row_dropped : parse_line (lit "* delta core") = None.
Proof. reflexivity. Qed.

Example short_dashes_dropped : parse_line (lit "---") = None.
Proof. reflexivity. Qed.

(** C1, as stated, fails: in a listing of a header, a row whose icon is the
    ASCII arrow [----->] and an ordinary row, both rows are well-formed in
    the stated sense (the first is no separator: it is not made of dashes
    only), yet the parser yields one record, not two. *)
Lemma stated_rows_miscounted :
  let text := lit "Cratos Skills" ++ [LF]
              ++ lit "-----> alpha core built" ++ [LF]
              ++ lit "* beta core built" in
  length (List.filter stated_row (splitlines text)) = 2
  /\ output_parser text = [ {| name := lit "beta"; origin := lit "built" |} ].
Proof. split; reflexivity. Qed.

(** C1, amended: with a data row being a line whose trimmed form is
    non-empty, does not start with the header prefix, does not start with
    five dashes, and has at least four tokens, the parser yields exactly
    one record per data row of the listing, in the order of the listing;
    every other line, wherever it stands, yields nothing.  These records
    are what the loop of main filters into the list of skills to export. *)
Theorem output_parser_rows (text : str) :
  output_parser text = map row_record (List.filter data_row (splitlines text))
  /\ length (output_parser text)
     = length (List.filter data_row (splitlines text))
  /\ select_skills text = export_batch (output_parser text).
Proof.
  split; [|split; [|apply select_skills_stages]].
  - unfold output_parser. apply omap_parse_line.
  - unfold output_parser. rewrite omap_parse_line. apply length_map.
Qed.

(** C6, as stated, fails: the line [-----> alpha core built] is non-empty
    when trimmed, does not start with the header prefix, is not a
    separator composed of dash characters and has four tokens, yet the
    parser builds no record from it. *)
Lemma arrow_icon_row_skipped :
  let line := lit "-----> alpha core built" in
  strip line <> []
  /\ startswith (strip line) header_prefix = false
  /\ dash_separator (strip line) = false
  /\ tokens line = [lit "----->"; lit "alpha"; lit "core"; lit "built"]
  /\ parse_line line = None.
Proof. repeat split; try reflexivity. discriminate. Qed.

(** C6, amended: for every line whose trimmed form is non-empty, does not
    start with the header prefix, does not start with five dashes, and
    splits into at least four tokens, the parser builds the record whose
    name is the second token and whose origin is the fourth; the first
    and third tokens and all after the fourth play no part, and the turn
    of the loop on that line acts on that name and origin. *)
Theorem parse_line_positional (line : str) :
  strip line <> [] ->
  startswith (strip line) header_prefix = false ->
  startswith (strip line) dash_prefix = false ->
  4 <= length (tokens line) ->
  exists icon nm category org rest,
    tokens line = icon :: nm :: category :: org :: rest
    /\ parse_line line = Some {| name := nm; origin := org |}
    /\ forall acc,
         loop_body acc line
         = if eqb org (lit "built") then acc ++ [nm] else acc.
Proof.
  intros Hne Hhead Hdash Hlen.
  assert (Hrow : exists icon nm category org rest,
             tokens line = icon :: nm :: category :: org :: rest
             /\ parse_line line = Some {| name := nm; origin := org |}).
  { rewrite parse_line_row. unfold data_row, row_record.
    rewrite Hhead, Hdash.
    destruct (falsy (strip line)) eqn:Hf;
      [apply falsy_nil in Hf; contradiction|].
    destruct (Nat.leb_spec 4 (length (tokens line))) as [_|H']; [|lia].
    destruct (tokens line) as [|icon [|nm [|category [|org rest]]]];
      simpl in Hlen; try lia.
    exists icon, nm, category, org, rest. split; reflexivity. }
  destruct Hrow as (icon & nm & category & org & rest & Htok & Hparse).
  exists icon, nm, category, org, rest.
  split; [exact Htok|]. split; [exact Hparse|].
  intros acc. rewrite loop_body_stages, Hparse. reflexivity.
Qed.

Lemma parse_line_positional_witness :
  exists icon nm category org rest,
    tokens (lit "  * alpha core built v1 on ")
    = icon :: nm :: category :: org :: rest
    /\ parse_line (lit "  * alpha core built v1 on ")
       = Some {| name := nm; origin := org |}
    /\ forall acc,
         loop_body acc (lit "  * alpha core built v1 on ")
         = if eqb org (lit "built") then acc ++ [nm] else acc.
Proof.
  apply (parse_line_positional (lit "  * alpha core built v1 on ")).
  - vm_compute. discriminate.
  - reflexivity.
  - reflexivity.
  - vm_compute. lia.
Defined.

(** C7: a record comes only from a line of at least four tokens; a line of
    fewer tokens, a blank line, a line starting with the header prefix and
    a line of dashes (or one that starts with five) yield none; and a
    line that yields none is dropped
    without trace: the loop, which prints nothing, ends with the same list
    as if the line had not been in the listing. *)
Theorem record_needs_four_tokens (line : str) :
  (forall r, parse_line line = Some r -> 4 <= length (split line))
  /\ (length (split line) < 4 -> parse_line line = None)
  /\ (strip line = [] -> parse_line line = None)
  /\ (startswith (strip line) header_prefix = true -> parse_line line = None)
  /\ (dash_separator (strip line) = true -> parse_line line = None)
  /\ (startswith (strip line) dash_prefix = true -> parse_line line = None)
  /\ (parse_line line = None ->
      forall before after acc,
        fold_left loop_body (before ++ line :: after) acc
        = fold_left loop_body (before ++ after) acc).
Proof.
  split; [apply parse_line_Some_tokens|].
  split; [apply parse_line_None_short|].
  split; [apply parse_line_None_blank|].
  split; [apply parse_line_None_header|].
  split; [|split; [apply parse_line_None_dashes | apply skipped_line_absent]].
  intros Hsep. apply parse_line_None_short.
  rewrite <- split_strip.
  pose proof (dash_separator_one_token _ Hsep). lia.
Qed.

Lemma record_needs_four_tokens_witness :
  parse_line (lit "* delta core") = None
  /\ parse_line (lit "   ") = None
  /\ parse_line (lit "Cratos Skills (3 active)") = None
  /\ parse_line (lit "---") = None
  /\ 4 <= length (split (lit "* alpha core built"))
  /\ fold_left loop_body [lit "* alpha core built"; lit "* delta core"] []
     = fold_left loop_body [lit "* alpha core built"] [].
Proof.
  destruct (record_needs_four_tokens (lit "* delta core"))
    as (_ & Hshort & _ & _ & _ & _ & Hsilent).
  destruct (record_needs_four_tokens (lit "   ")) as (_ & _ & Hblank & _).
  destruct (record_needs_four_tokens (lit "Cratos Skills (3 active)"))
    as (_ & _ & _ & Hhead & _).
  destruct (record_needs_four_tokens (lit "---")) as (_ & _ & _ & _ & Hsep & _).
  destruct (record_needs_four_tokens (lit "* alpha core built")) as (Hsome & _).
  split; [apply Hshort; vm_compute; lia|].
  split; [apply Hblank; reflexivity|].
  split; [apply Hhead; reflexivity|].
  split; [apply Hsep; reflexivity|].
  split; [apply (Hsome {| name := lit "alpha"; origin := lit "built" |});
          reflexivity|].
  apply (Hsilent (Hshort ltac:(vm_compute; lia)) [lit "* alpha core built"] [] []).
Defined.

(** C10: a line whose trimmed form starts with five dashes yields no record
    and adds nothing to the list of skills to export, whatever follows the
    dashes. *)
Theorem dash_prefix_line_skipped (line : str) :
  startswith (strip line) dash_prefix = true ->
  parse_line line = None
  /\ (forall acc, loop_body acc line = acc)
  /\ (forall before after,
        fold_left loop_body (before ++ line :: after) []
        = fold_left loop_body (before ++ after) []).
Proof.
  intros H. pose proof (parse_line_None_dashes line H) as Hnone.
  split; [exact Hnone|]. split.
  - intros acc. rewrite loop_body_stages, Hnone. reflexivity.
  - intros before after. apply skipped_line_absent. exact Hnone.
Qed.

Lemma dash_prefix_line_skipped_witness :
  startswith (strip (lit " ----- alpha core built")) dash_prefix = true
  /\ 4 <= length (tokens (lit " ----- alpha core built"))
  /\ item (tokens (lit " ----- alpha core built")) 3 = lit "built"
  /\ parse_line (lit " ----- alpha core built") = None
  /\ (forall acc, loop_body acc (lit " ----- alpha core built") = acc).
Proof.
  split; [reflexivity|]. split; [vm_compute; lia|]. split; [reflexivity|].
  destruct (dash_prefix_line_skipped (lit " ----- alpha core built"))
    as (Hnone & Hbody & _); [reflexivity|].
  split; [exact Hnone | exact Hbody].
Defined.

(* --------------------------------------------------------------------- *)
(* The origin filter                                                     *)
(* --------------------------------------------------------------------- *)

Example filter_is_case_sensitive :
  export_batch [ {| name := lit "a"; origin := lit "Built" |};
                 {| name := lit "b"; origin := lit "built " |};
                 {| name := lit "c"; origin := lit "builtin" |} ] = [].
Proof. reflexivity. Qed.

Example filter_keeps_duplicates :
  select_skills (lit "* alpha core built" ++ [LF] ++ lit "* beta core custom"
                 ++ [LF] ++ lit "+ alpha tool built")
  = [lit "alpha"; lit "alpha"].
Proof. reflexivity. Qed.

(** C2: the records the origin filter keeps are a subsequence of its input
    (same order, possibly empty); a record is kept exactly when it is in
    the input and its origin is, code point for code point, the string
    built; the export batch is the names of the kept records in that
    order; and a name stands in the batch once for every input record of
    that name whose origin is built, so nothing is deduplicated.  The
    filter is the one lines 44-45 of main apply: a turn of the loop on a
    line that parses to a record appends its name exactly when its origin
    is built, and on any lines, or any text, whose records are the given
    ones, the loop of main ends with the names of the kept records, with
    their repetitions. *)
Theorem origin_filter_subsequence (records : list SkillRecord) :
  sublist (origin_filter records) records
  /\ (forall r, In r (origin_filter records)
                <-> In r records /\ origin r = lit "built")
  /\ export_batch records = map name (origin_filter records)
  /\ (forall n, count_name n (export_batch records)
                = length (List.filter
                            (fun r => is_built r && eqb n (name r)) records))
  /\ (forall line r acc,
        parse_line line = Some r ->
        loop_body acc line
        = if eqb (origin r) (lit "built") then acc ++ [name r] else acc)
  /\ (forall lines acc,
        omap parse_line lines = records ->
        fold_left loop_body lines acc
        = acc ++ map name (origin_filter records))
  /\ (forall text,
        output_parser text = records ->
        select_skills text = map name (origin_filter records)
        /\ forall n, count_name n (select_skills text)
                     = length (List.filter
                                 (fun r => is_built r && eqb n (name r))
                                 records)).
Proof.
  assert (Hbatch : export_batch records = map name (origin_filter records)).
  { unfold export_batch. rewrite fold_filter_step. reflexivity. }
  split; [apply filter_sublist|].
  split; [intros r; apply origin_filter_In|].
  split; [exact Hbatch|].
  split; [intros n; rewrite Hbatch; apply count_name_batch|].
  split.
  { intros line r acc Hparse. rewrite loop_body_stages, Hparse. reflexivity. }
  split.
  { intros lines acc <-. apply fold_loop_body. }
  intros text <-.
  assert (Hsel : select_skills text
                 = map name (origin_filter (output_parser text))).
  { rewrite select_skills_stages. unfold export_batch.
    rewrite fold_filter_step. reflexivity. }
  split; [exact Hsel|].
  intros n. rewrite Hsel. apply count_name_batch.
Qed.

Lemma origin_filter_subsequence_witness :
  select_skills (lit "* alpha core built" ++ [LF] ++ lit "* beta core Built"
                 ++ [LF] ++ lit "+ alpha tool built")
  = [lit "alpha"; lit "alpha"]
  /\ count_name (lit "alpha")
       (select_skills (lit "* alpha core built" ++ [LF]
                       ++ lit "* beta core Built" ++ [LF]
                       ++ lit "+ alpha tool built")) = 2
  /\ loop_body [lit "alpha"] (lit "* beta core Built") = [lit "alpha"]
  /\ loop_body [lit "alpha"] (lit "+ alpha tool built")
     = [lit "alpha"; lit "alpha"].
Proof.
  destruct (origin_filter_subsequence
              [ {| name := lit "alpha"; origin := lit "built" |};
                {| name := lit "beta"; origin := lit "Built" |};
                {| name := lit "alpha"; origin := lit "built" |} ])
    as (_ & _ & _ & _ & Hturn & _ & Htext).
  destruct (Htext (lit "* alpha core built" ++ [LF] ++ lit "* beta core Built"
                   ++ [LF] ++ lit "+ alpha tool built") eq_refl)
    as [Hsel Hcount].
  split; [exact Hsel|]. split; [exact (Hcount (lit "alpha"))|].
  split.
  - exact (Hturn (lit "* beta core Built")
             {| name := lit "beta"; origin := lit "Built" |}
             [lit "alpha"] eq_refl).
  - exact (Hturn (lit "+ alpha tool built")
             {| name := lit "alpha"; origin := lit "built" |}
             [lit "alpha"] eq_refl).
Defined.

(* --------------------------------------------------------------------- *)
(* Runs of main                                                          *)
(* --------------------------------------------------------------------- *)

Section Runs.

Variable World : Type.
Variable spawn : list str -> World -> CompletedProcess * World.

Lemma invocations_app (l1 l2 : list Event) :
  invocations (l1 ++ l2) = invocations l1 ++ invocations l2.
Proof. unfold invocations. apply omap_app. Qed.

Lemma lines_of_app (l1 l2 : list Event) :
  lines_of (l1 ++ l2) = lines_of l1 ++ lines_of l2.
Proof. unfold lines_of. apply omap_app. Qed.

(* A checked call that fails raises, and what was to follow it is not run. *)
Lemma subprocess_run_checked_fails (argv : list str) (st : State World) :
  returncode (spawn argv (world st)).1 <> 0%Z ->
  subprocess_run spawn argv true st
  = (Raise (CalledProcessError (returncode (spawn argv (world st)).1) argv),
     {| world := (spawn argv (world st)).2;
        log := log st ++ [Run argv true (spawn argv (world st)).1] |}).
Proof.
  intros H. unfold subprocess_run. destruct (spawn argv (world st)) as [r w].
  simpl in *. apply Z.eqb_neq in H. rewrite H. reflexivity.
Qed.

Lemma subprocess_run_checked_passes (argv : list str) (st : State World) :
  returncode (spawn argv (world st)).1 = 0%Z ->
  subprocess_run spawn argv true st
  = (Ok (spawn argv (world st)).1,
     {| world := (spawn argv (world st)).2;
        log := log st ++ [Run argv true (spawn argv (world st)).1] |}).
Proof.
  intros H. unfold subprocess_run. destruct (spawn argv (world st)) as [r w].
  simpl in *. rewrite H. reflexivity.
Qed.

Lemma subprocess_run_unchecked (argv : list str) (st : State World) :
  subprocess_run spawn argv false st
  = (Ok (spawn argv (world st)).1,
     {| world := (spawn argv (world st)).2;
        log := log st ++ [Run argv false (spawn argv (world st)).1] |}).
Proof.
  unfold subprocess_run. destruct (spawn argv (world st)) as [r w]. reflexivity.
Qed.

Lemma bind_raise {A B} (m : M World A) (f : A -> M World B) (st st' : State World) e :
  m st = (Raise e, st') -> bind m f st = (Raise e, st').
Proof. intros H. unfold bind. rewrite H. reflexivity. Qed.

Lemma bind_ok {A B} (m : M World A) (f : A -> M World B) (st st' : State World) a :
  m st = (Ok a, st') -> bind m f st = f a st'.
Proof. intros H. unfold bind. rewrite H. reflexivity. Qed.

Lemma export_loop_cons (s : str) (rest : list str) (st : State World) :
  export_loop spawn (s :: rest) st
  = bind (subprocess_run spawn (export_cmd s) true)
         (fun _ => export_loop spawn rest)
         {| world := world st; log := log st ++ [Print (exporting_line s)] |}.
Proof. reflexivity. Qed.

(* The export loop on a batch whose first k - 1 exports succeed and whose
   k-th fails. *)
Lemma export_loop_first_failure (batch : list str) :
  forall (j : nat) (rc : Z) (skill : str) (st : State World),
    (forall i, i < j ->
       statuses spawn (map export_cmd batch) (world st) !! i = Some 0%Z) ->
    statuses spawn (map export_cmd batch) (world st) !! j = Some rc ->
    rc <> 0%Z ->
    batch !! j = Some skill ->
    exists st',
      export_loop spawn batch st
      = (Raise (CalledProcessError rc (export_cmd skill)), st')
      /\ invocations (log st')
         = invocations (log st) ++ map export_cmd (take (S j) batch)
      /\ lines_of (log st')
         = lines_of (log st) ++ map exporting_line (take (S j) batch)
      /\ world st' = world_after spawn (map export_cmd (take (S j) batch)) (world st).
Proof.
  induction batch as [|s batch IH]; intros j rc skill st Hbefore Hat Hrc Hskill.
  - discriminate.
  - simpl in Hat, Hbefore.
    set (st1 := {| world := world st;
                   log := log st ++ [Print (exporting_line s)] |}).
    destruct j as [|j].
    + simpl in Hat, Hskill. injection Hat as Hat. injection Hskill as <-.
      eexists. split; [|split; [|split]].
      * rewrite export_loop_cons. fold st1. apply bind_raise.
        rewrite (subprocess_run_checked_fails (export_cmd s) st1)
          by (simpl; congruence).
        simpl. rewrite Hat. reflexivity.
      * simpl. rewrite !invocations_app. simpl. rewrite app_nil_r. reflexivity.
      * simpl. rewrite !lines_of_app. simpl. rewrite app_nil_r. reflexivity.
      * reflexivity.
    + assert (H0 : returncode (spawn (export_cmd s) (world st)).1 = 0%Z).
      { specialize (Hbefore 0 ltac:(lia)). simpl in Hbefore. congruence. }
      set (st2 := {| world := (spawn (export_cmd s) (world st)).2;
                     log := log st1 ++ [Run (export_cmd s) true
                                          (spawn (export_cmd s) (world st)).1] |}).
      destruct (IH j rc skill st2) as (st' & Hrun & Hinv & Hlines & Hworld).
      * intros i Hi. specialize (Hbefore (S i) ltac:(lia)). exact Hbefore.
      * exact Hat.
      * exact Hrc.
      * exact Hskill.
      * exists st'. split; [|split; [|split]].
        -- rewrite export_loop_cons. fold st1.
           erewrite bind_ok
             by (apply (subprocess_run_checked_passes (export_cmd s) st1);
                 exact H0).
           exact Hrun.
        -- rewrite Hinv. unfold st2, st1. simpl.
           rewrite !invocations_app. simpl. rewrite app_nil_r, <- app_assoc.
           reflexivity.
        -- rewrite Hlines. unfold st2, st1. simpl.
           rewrite !lines_of_app. simpl. rewrite app_nil_r, <- app_assoc.
           reflexivity.
        -- rewrite Hworld. reflexivity.
Qed.

Lemma statuses_length (cmds : list (list str)) (w : World) :
  length (statuses spawn cmds w) = length cmds.
Proof.
  revert w; induction cmds as [|c cmds IH]; intros w; simpl; [reflexivity|].
  rewrite IH. reflexivity.
Qed.

Lemma export_phase_unfold (batch : list str) (st : State World) :
  export_phase spawn batch st
  = bind (export_loop spawn batch)
         (fun _ => print (lit "Batch export complete."))
         {| world := world st;
            log := log st ++ [Print (found_line (length batch))] |}.
Proof. reflexivity. Qed.

(* main up to the listing, by what the build and the listing return. *)
Lemma main_build_fails (st : State World) :
  returncode (spawn build_cmd (world st)).1 <> 0%Z ->
  main spawn st
  = (Raise (CalledProcessError (returncode (spawn build_cmd (world st)).1)
              build_cmd),
     {| world := (spawn build_cmd (world st)).2;
        log := log st ++ [Print (lit "Building Cratos...");
                          Run build_cmd true (spawn build_cmd (world st)).1] |}).
Proof.
  intros H. unfold main. unfold bind at 1. unfold print at 1.
  apply bind_raise. rewrite subprocess_run_checked_fails by exact H.
  simpl. rewrite <- app_assoc. reflexivity.
Qed.

Lemma main_list_fails (st : State World) :
  returncode (spawn build_cmd (world st)).1 = 0%Z ->
  returncode (spawn list_cmd (spawn build_cmd (world st)).2).1 <> 0%Z ->
  main spawn st
  = (Ok tt,
     {| world := (spawn list_cmd (spawn build_cmd (world st)).2).2;
        log := log st
               ++ [Print (lit "Building Cratos...");
                   Run build_cmd true (spawn build_cmd (world st)).1;
                   Print (lit "Fetching active skills...");
                   Run list_cmd false
                     (spawn list_cmd (spawn build_cmd (world st)).2).1;
                   Print (lit "Error listing skills:");
                   Print (stderr
                            (spawn list_cmd (spawn build_cmd (world st)).2).1)]
     |}).
Proof.
  intros Hb Hl. unfold main. unfold bind at 1. unfold print at 1.
  erewrite bind_ok by (apply subprocess_run_checked_passes; exact Hb).
  unfold bind at 1. unfold print at 1.
  erewrite bind_ok by (apply subprocess_run_unchecked).
  cbn [world log]. apply Z.eqb_neq in Hl. rewrite Hl. cbn [negb].
  unfold bind, print, ret. cbn [world log]. rewrite <- !app_assoc. reflexivity.
Qed.

Lemma main_list_passes (st : State World) :
  returncode (spawn build_cmd (world st)).1 = 0%Z ->
  returncode (spawn list_cmd (spawn build_cmd (world st)).2).1 = 0%Z ->
  main spawn st
  = export_phase spawn
      (select_skills (stdout (spawn list_cmd (spawn build_cmd (world st)).2).1))
      {| world := (spawn list_cmd (spawn build_cmd (world st)).2).2;
         log := log st
                ++ [Print (lit "Building Cratos...");
                    Run build_cmd true (spawn build_cmd (world st)).1;
                    Print (lit "Fetching active skills...");
                    Run list_cmd false
                      (spawn list_cmd (spawn build_cmd (world st)).2).1] |}.
Proof.
  intros Hb Hl. unfold main. unfold bind at 1. unfold print at 1.
  erewrite bind_ok by (apply subprocess_run_checked_passes; exact Hb).
  unfold bind at 1. unfold print at 1.
  erewrite bind_ok by (apply subprocess_run_unchecked).
  cbn [world log]. rewrite Hl. cbn [negb Z.eqb].
  rewrite <- !app_assoc. reflexivity.
Qed.

Lemma script_eq (w : World) :
  script spawn w
  = (exit_status (main spawn {| world := w; log := [] |}).1,
     log (main spawn {| world := w; log := [] |}).2).
Proof.
  unfold script. destruct (main spawn {| world := w; log := [] |}). reflexivity.
Qed.

(* Every computation main is built from keeps the law of the checked
   call. *)
Lemma disciplined_ret {A} (a : A) : disciplined (ret a : M World A).
Proof.
  intros st. exists []. simpl. rewrite app_nil_r.
  split; [reflexivity|]. split; constructor.
Qed.

Lemma disciplined_print (text : str) : disciplined (print text : M World unit).
Proof.
  intros st. exists [Print text]. simpl.
  split; [reflexivity|].
  split; (constructor; [|constructor]); [exact I | reflexivity].
Qed.

Lemma disciplined_run (argv : list str) (check : bool) :
  (forall r, known_event (Run argv check r)) ->
  disciplined (subprocess_run spawn argv check).
Proof.
  intros Hknown st. unfold subprocess_run.
  destruct (spawn argv (world st)) as [r w].
  exists [Run argv check r].
  assert (Hk : Forall known_event [Run argv check r]).
  { constructor; [apply Hknown | constructor]. }
  destruct check; simpl.
  - destruct (Z.eqb_spec (returncode r) 0) as [H0|H0]; simpl.
    + split; [reflexivity|]. split; [exact Hk|].
      constructor; [|constructor]. simpl. rewrite H0. reflexivity.
    + split; [reflexivity|]. split; [exact Hk|].
      exists [], r. split; [reflexivity|]. split; [constructor|].
      split; [reflexivity | exact H0].
  - split; [reflexivity|]. split; [exact Hk|].
    constructor; [reflexivity | constructor].
Qed.

Lemma disciplined_bind {A B} (m : M World A) (f : A -> M World B) :
  disciplined m -> (forall a, disciplined (f a)) -> disciplined (bind m f).
Proof.
  intros Hm Hf st. unfold bind.
  destruct (Hm st) as (ev1 & Hlog1 & Hknown1 & Hout1).
  destruct (m st) as [[a|e] st1]; simpl in *.
  - destruct (Hf a st1) as (ev2 & Hlog2 & Hknown2 & Hout2).
    exists (ev1 ++ ev2). rewrite Hlog2, Hlog1, app_assoc.
    split; [reflexivity|]. split; [apply Forall_app; split; assumption|].
    destruct ((f a st1).1) as [b|[rc cmd]]; simpl in *.
    + apply Forall_app; split; assumption.
    + destruct Hout2 as (before & result & -> & Hbefore & Hrc & Hne).
      exists (ev1 ++ before), result. rewrite app_assoc.
      split; [reflexivity|]. split; [apply Forall_app; split; assumption|].
      split; assumption.
  - exists ev1. split; [assumption|]. split; assumption.
Qed.

Lemma disciplined_export_loop (batch : list str) :
  disciplined (export_loop spawn batch).
Proof.
  induction batch as [|s batch IH]; simpl.
  - apply disciplined_ret.
  - apply disciplined_bind; [apply disciplined_print|]. intros _.
    apply disciplined_bind; [|intros _; exact IH].
    apply disciplined_run. intros r. left. split; [reflexivity|].
    right. exists s. reflexivity.
Qed.

Lemma disciplined_main : disciplined (main spawn).
Proof.
  unfold main.
  apply disciplined_bind; [apply disciplined_print|]. intros _.
  apply disciplined_bind.
  { apply disciplined_run. intros r. left. split; [reflexivity|].
    left. reflexivity. }
  intros _.
  apply disciplined_bind; [apply disciplined_print|]. intros _.
  apply disciplined_bind.
  { apply disciplined_run. intros r. right. split; reflexivity. }
  intros result. destruct (negb (returncode result =? 0)%Z).
  - apply disciplined_bind; [apply disciplined_print|]. intros _.
    apply disciplined_bind; [apply disciplined_print|]. intros _.
    apply disciplined_ret.
  - unfold export_phase.
    apply disciplined_bind; [apply disciplined_print|]. intros _.
    apply disciplined_bind; [apply disciplined_export_loop|]. intros _.
    apply disciplined_print.
Qed.

(** C3: when the export of the k-th skill of the batch is the first to
    leave with a non-zero status, the export phase raises on that export;
    the commands it has run are the exports of the first k skills, one
    each and in order, so k invocations in all and none for a later skill;
    no other command is run, before or after the failure, so what was
    exported stays exported: the world is the one the k exports left; and
    the lines printed end with the progress line of the k-th skill. *)
Theorem export_stops_at_first_failure
    (batch : list str) (k : nat) (rc : Z) (st : State World) :
  1 <= k ->
  (forall i, i < k - 1 ->
     statuses spawn (map export_cmd batch) (world st) !! i = Some 0%Z) ->
  statuses spawn (map export_cmd batch) (world st) !! (k - 1) = Some rc ->
  rc <> 0%Z ->
  exists skill st',
    batch !! (k - 1) = Some skill
    /\ export_phase spawn batch st
       = (Raise (CalledProcessError rc (export_cmd skill)), st')
    /\ invocations (log st')
       = invocations (log st) ++ map export_cmd (take k batch)
    /\ length (map export_cmd (take k batch)) = k
    /\ lines_of (log st')
       = lines_of (log st)
         ++ found_line (length batch) :: map exporting_line (take k batch)
    /\ world st' = world_after spawn (map export_cmd (take k batch)) (world st).
Proof.
  intros Hk Hbefore Hat Hrc.
  destruct k as [|j]; [lia|]. replace (S j - 1) with j in * by lia.
  assert (Hj : j < length batch).
  { apply lookup_lt_Some in Hat.
    rewrite statuses_length, length_map in Hat. exact Hat. }
  destruct (lookup_lt_is_Some_2 batch j Hj) as [skill Hskill].
  set (st1 := {| world := world st;
                 log := log st ++ [Print (found_line (length batch))] |}).
  destruct (export_loop_first_failure batch j rc skill st1 Hbefore Hat Hrc Hskill)
    as (st' & Hrun & Hinv & Hlines & Hworld).
  exists skill, st'. split; [exact Hskill|]. split.
  { rewrite export_phase_unfold. fold st1. apply bind_raise. exact Hrun. }
  split.
  { rewrite Hinv. unfold st1. simpl. rewrite invocations_app. simpl.
    rewrite app_nil_r. reflexivity. }
  split.
  { rewrite length_map, length_take. lia. }
  split.
  { rewrite Hlines. unfold st1. simpl. rewrite lines_of_app. simpl.
    rewrite <- app_assoc. reflexivity. }
  exact Hworld.
Qed.

(** C4: when the build succeeds and the listing command leaves with a
    non-zero status, main prints the two progress lines, the error line
    and the captured stderr, runs the build and the listing and no export,
    reads nothing of the listing's stdout, and returns; the process ends
    with status 0. *)
Theorem list_failure_returns (w : World) :
  returncode (spawn build_cmd w).1 = 0%Z ->
  returncode (spawn list_cmd (spawn build_cmd w).2).1 <> 0%Z ->
  (main spawn {| world := w; log := [] |}).1 = Ok tt
  /\ script spawn w
     = (0%Z,
        [Print (lit "Building Cratos...");
         Run build_cmd true (spawn build_cmd w).1;
         Print (lit "Fetching active skills...");
         Run list_cmd false (spawn list_cmd (spawn build_cmd w).2).1;
         Print (lit "Error listing skills:");
         Print (stderr (spawn list_cmd (spawn build_cmd w).2).1)])
  /\ invocations (script spawn w).2 = [build_cmd; list_cmd].
Proof.
  intros Hb Hl. rewrite script_eq.
  rewrite (main_list_fails {| world := w; log := [] |} Hb Hl).
  split; [reflexivity|]. split; reflexivity.
Qed.

(** C5, amended: every command main runs checked is the build or an
    export, the listing is run unchecked; and when a checked command
    leaves with a non-zero status, main ends there with an uncaught
    CalledProcessError that carries the command and its status: that
    command is the last thing the run does (no retry, nothing after it),
    and the process ends with status 1, whatever the status of the
    child. *)
Theorem checked_failure_ends_run (w : World) :
  Forall known_event (script spawn w).2
  /\ forall i argv result,
       (script spawn w).2 !! i = Some (Run argv true result) ->
       returncode result <> 0%Z ->
       (main spawn {| world := w; log := [] |}).1
       = Raise (CalledProcessError (returncode result) argv)
       /\ (script spawn w).1 = 1%Z
       /\ length (script spawn w).2 = S i.
Proof.
  rewrite script_eq. cbn [fst snd].
  destruct (disciplined_main {| world := w; log := [] |})
    as (events & Hlog & Hknown & Hout).
  cbn [log app] in Hlog. rewrite Hlog. split; [exact Hknown|].
  intros i argv result Hi Hrc.
  destruct ((main spawn {| world := w; log := [] |}).1) as [[]|[rc cmd]];
    simpl in Hout.
  - exfalso. pose proof (Forall_lookup_1 _ _ _ _ Hout Hi) as Hclean.
    simpl in Hclean. apply Z.eqb_neq in Hrc. rewrite Hrc in Hclean.
    discriminate.
  - destruct Hout as (before & result' & -> & Hbefore & <- & Hne).
    apply lookup_app_Some in Hi. destruct Hi as [Hi | [Hle Hi]].
    + exfalso. pose proof (Forall_lookup_1 _ _ _ _ Hbefore Hi) as Hclean.
      simpl in Hclean. apply Z.eqb_neq in Hrc. rewrite Hrc in Hclean.
      discriminate.
    + destruct (i - length before) as [|n] eqn:Hn; [|destruct n; discriminate].
      simpl in Hi. injection Hi as <- <-.
      split; [reflexivity|]. split; [reflexivity|].
      rewrite length_app. simpl. lia.
Qed.

(** C8: the loop selects alpha and gamma, in that order, from the listing
    of the scenario; and in a run where the build and the listing succeed,
    the listing prints that text and the export of alpha succeeds, the
    commands run after the listing are exactly two, the launcher of the
    tool followed by skill export --markdown alpha and by skill export
    --markdown gamma. *)
Theorem scenario_exports_alpha_gamma :
  select_skills scenario_listing = [lit "alpha"; lit "gamma"]
  /\ forall w,
       returncode (spawn build_cmd w).1 = 0%Z ->
       returncode (spawn list_cmd (spawn build_cmd w).2).1 = 0%Z ->
       stdout (spawn list_cmd (spawn build_cmd w).2).1 = scenario_listing ->
       returncode (spawn (export_cmd (lit "alpha"))
                     (spawn list_cmd (spawn build_cmd w).2).2).1 = 0%Z ->
       invocations (script spawn w).2
       = [build_cmd; list_cmd;
          cratos_launcher
          ++ [lit "skill"; lit "export"; lit "--markdown"; lit "alpha"];
          cratos_launcher
          ++ [lit "skill"; lit "export"; lit "--markdown"; lit "gamma"]].
Proof.
  assert (Hsel : select_skills scenario_listing = [lit "alpha"; lit "gamma"])
    by reflexivity.
  split; [exact Hsel|].
  intros w Hb Hl Hout Ha. rewrite script_eq. cbn [snd].
  rewrite (main_list_passes {| world := w; log := [] |} Hb Hl).
  cbn [world log app]. rewrite Hout, Hsel.
  rewrite export_phase_unfold. cbn [world log].
  unfold bind at 1. rewrite export_loop_cons. cbn [world log].
  erewrite bind_ok by (apply subprocess_run_checked_passes; exact Ha).
  cbn [world log]. rewrite export_loop_cons. cbn [world log].
  unfold bind at 1. unfold subprocess_run.
  match goal with |- context [spawn ?c ?x] =>
    lazymatch c with
    | export_cmd (lit "gamma") => destruct (spawn c x) as [r3 w3]
    end
  end.
  destruct (true && negb (returncode r3 =? 0)%Z); reflexivity.
Qed.

(** C9: the parse-and-filter pass is a function of the text alone.  Run
    from any list left over from before, the loop only appends what it
    selects from a fresh start, so no turn of the loop reads what earlier
    turns or earlier passes stored; two passes over the same text give the
    same records and the same batch; and two runs of main, from any two
    states of the world and of the log, that read the same listing go on
    to export the same batch. *)
Theorem parsing_is_stateless (text : str) :
  (forall acc, fold_left loop_body (splitlines text) acc
               = acc ++ select_skills text)
  /\ (forall text' records records' batch batch',
        text' = text ->
        records = output_parser text -> records' = output_parser text' ->
        batch = select_skills text -> batch' = select_skills text' ->
        records = records' /\ batch = batch')
  /\ (forall st1 st2 : State World,
        returncode (spawn build_cmd (world st1)).1 = 0%Z ->
        returncode (spawn list_cmd (spawn build_cmd (world st1)).2).1 = 0%Z ->
        stdout (spawn list_cmd (spawn build_cmd (world st1)).2).1 = text ->
        returncode (spawn build_cmd (world st2)).1 = 0%Z ->
        returncode (spawn list_cmd (spawn build_cmd (world st2)).2).1 = 0%Z ->
        stdout (spawn list_cmd (spawn build_cmd (world st2)).2).1 = text ->
        exists st1' st2',
          main spawn st1 = export_phase spawn (select_skills text) st1'
          /\ main spawn st2 = export_phase spawn (select_skills text) st2').
Proof.
  split; [|split].
  - intros acc. unfold select_skills. rewrite !fold_loop_body. reflexivity.
  - intros text' records records' batch batch' -> -> -> -> ->.
    split; reflexivity.
  - intros st1 st2 Hb1 Hl1 Ht1 Hb2 Hl2 Ht2.
    eexists _, _. split.
    + rewrite (main_list_passes st1 Hb1 Hl1), Ht1. reflexivity.
    + rewrite (main_list_passes st2 Hb2 Hl2), Ht2. reflexivity.
Qed.

End Runs.

(* --------------------------------------------------------------------- *)
(* Runs against the scripted operating system                            *)
(* --------------------------------------------------------------------- *)

Example scenario_run :
  script Scripted.spawn
    [Scripted.done_with 0;
     {| returncode := 0; stdout := scenario_listing; stderr := [] |}]
  = (0%Z,
     [Print (lit "Building Cratos...");
      Run build_cmd true (Scripted.done_with 0);
      Print (lit "Fetching active skills...");
      Run list_cmd false
        {| returncode := 0; stdout := scenario_listing; stderr := [] |};
      Print (lit "Found 2 builtin skills to export.");
      Print (lit "Exporting alpha...");
      Run (export_cmd (lit "alpha")) true (Scripted.done_with 0);
      Print (lit "Exporting gamma...");
      Run (export_cmd (lit "gamma")) true (Scripted.done_with 0);
      Print (lit "Batch export complete.")]).
Proof. reflexivity. Qed.

Example empty_listing_run :
  script Scripted.spawn []
  = (0%Z,
     [Print (lit "Building Cratos...");
      Run build_cmd true (Scripted.done_with 0);
      Print (lit "Fetching active skills...");
      Run list_cmd false (Scripted.done_with 0);
      Print (lit "Found 0 builtin skills to export.");
      Print (lit "Batch export complete.")]).
Proof. reflexivity. Qed.

Lemma export_stops_at_first_failure_witness :
  exists skill st',
    [lit "alpha"; lit "beta"; lit "gamma"] !! (2 - 1) = Some skill
    /\ export_phase Scripted.spawn [lit "alpha"; lit "beta"; lit "gamma"]
         {| world := [Scripted.done_with 0; Scripted.done_with 3;
                      Scripted.done_with 0];
            log := [] |}
       = (Raise (CalledProcessError 3 (export_cmd skill)), st')
    /\ invocations (log st')
       = [] ++ map export_cmd (take 2 [lit "alpha"; lit "beta"; lit "gamma"])
    /\ length (map export_cmd (take 2 [lit "alpha"; lit "beta"; lit "gamma"]))
       = 2
    /\ lines_of (log st')
       = [] ++ found_line 3
            :: map exporting_line (take 2 [lit "alpha"; lit "beta"; lit "gamma"])
    /\ world st'
       = world_after Scripted.spawn
           (map export_cmd (take 2 [lit "alpha"; lit "beta"; lit "gamma"]))
           [Scripted.done_with 0; Scripted.done_with 3; Scripted.done_with 0].
Proof.
  apply (export_stops_at_first_failure Scripted.World Scripted.spawn
           [lit "alpha"; lit "beta"; lit "gamma"] 2 3
           {| world := [Scripted.done_with 0; Scripted.done_with 3;
                        Scripted.done_with 0];
              log := [] |}).
  - lia.
  - intros i Hi. destruct i; [reflexivity | lia].
  - reflexivity.
  - lia.
Defined.

Lemma list_failure_returns_witness :
  (main Scripted.spawn
     {| world := [Scripted.done_with 0;
                  {| returncode := 101; stdout := lit "* alpha core built";
                     stderr := lit "error: no registry" |}];
        log := [] |}).1 = Ok tt
  /\ (script Scripted.spawn
        [Scripted.done_with 0;
         {| returncode := 101; stdout := lit "* alpha core built";
            stderr := lit "error: no registry" |}]).1 = 0%Z
  /\ invocations
       (script Scripted.spawn
          [Scripted.done_with 0;
           {| returncode := 101; stdout := lit "* alpha core built";
              stderr := lit "error: no registry" |}]).2
     = [build_cmd; list_cmd].
Proof.
  destruct (list_failure_returns Scripted.World Scripted.spawn
              [Scripted.done_with 0;
               {| returncode := 101; stdout := lit "* alpha core built";
                  stderr := lit "error: no registry" |}])
    as (Hret & Hscript & Hinv).
  - reflexivity.
  - simpl. lia.
  - split; [exact Hret|]. split; [rewrite Hscript; reflexivity | exact Hinv].
Defined.

(** C5, as stated, fails: when the build leaves with status 2, the process
    ends with status 1, not 2. *)
Lemma build_status_not_passed_on :
  returncode (Scripted.spawn build_cmd [Scripted.done_with 2]).1 = 2%Z
  /\ script Scripted.spawn [Scripted.done_with 2]
     = (1%Z,
        [Print (lit "Building Cratos...");
         Run build_cmd true (Scripted.done_with 2)]).
Proof. split; reflexivity. Qed.

Lemma checked_failure_ends_run_witness :
  (main Scripted.spawn
     {| world := [Scripted.done_with 0;
                  {| returncode := 0; stdout := scenario_listing;
                     stderr := [] |};
                  Scripted.done_with 0; Scripted.done_with 7];
        log := [] |}).1
  = Raise (CalledProcessError 7 (export_cmd (lit "gamma")))
  /\ (script Scripted.spawn
        [Scripted.done_with 0;
         {| returncode := 0; stdout := scenario_listing; stderr := [] |};
         Scripted.done_with 0; Scripted.done_with 7]).1 = 1%Z
  /\ length (script Scripted.spawn
               [Scripted.done_with 0;
                {| returncode := 0; stdout := scenario_listing; stderr := [] |};
                Scripted.done_with 0; Scripted.done_with 7]).2 = 9.
Proof.
  destruct (checked_failure_ends_run Scripted.World Scripted.spawn
              [Scripted.done_with 0;
               {| returncode := 0; stdout := scenario_listing; stderr := [] |};
               Scripted.done_with 0; Scripted.done_with 7]) as [_ Hfail].
  apply (Hfail 8 (export_cmd (lit "gamma")) (Scripted.done_with 7)).
  - reflexivity.
  - simpl. lia.
Defined.

Lemma scenario_exports_alpha_gamma_witness :
  invocations
    (script Scripted.spawn
       [Scripted.done_with 0;
        {| returncode := 0; stdout := scenario_listing; stderr := [] |};
        Scripted.done_with 0; Scripted.done_with 5]).2
  = [build_cmd; list_cmd;
     cratos_launcher
     ++ [lit "skill"; lit "export"; lit "--markdown"; lit "alpha"];
     cratos_launcher
     ++ [lit "skill"; lit "export"; lit "--markdown"; lit "gamma"]].
Proof.
  destruct (scenario_exports_alpha_gamma Scripted.World Scripted.spawn)
    as [_ Hrun].
  apply Hrun; reflexivity.
Defined.

Lemma parsing_is_stateless_witness :
  fold_left loop_body (splitlines scenario_listing) [lit "stale"]
  = [lit "stale"; lit "alpha"; lit "gamma"]
  /\ output_parser scenario_listing = output_parser scenario_listing
  /\ select_skills scenario_listing = select_skills scenario_listing
  /\ exists st1' st2',
       main Scripted.spawn
         {| world := [Scripted.done_with 0;
                      {| returncode := 0; stdout := scenario_listing;
                         stderr := [] |}];
            log := [] |}
       = export_phase Scripted.spawn (select_skills scenario_listing) st1'
       /\ main Scripted.spawn
            {| world := [Scripted.done_with 0;
                         {| returncode := 0; stdout := scenario_listing;
                            stderr := lit "warning: unused" |};
                         Scripted.done_with 4];
               log := [Print (lit "Batch export complete.")] |}
          = export_phase Scripted.spawn (select_skills scenario_listing) st2'.
Proof.
  destruct (parsing_is_stateless Scripted.World Scripted.spawn scenario_listing)
    as (Hacc & Htwice & Hruns).
  split; [exact (Hacc [lit "stale"]) |].
  split; [exact (proj1 (Htwice scenario_listing _ _ _ _
                          eq_refl eq_refl eq_refl eq_refl eq_refl)) |].
  split; [exact (proj2 (Htwice scenario_listing _ _ _ _
                          eq_refl eq_refl eq_refl eq_refl eq_refl)) |].
  apply Hruns; reflexivity.
Defined.

(* --------------------------------------------------------------------- *)
(* Further properties of the selection loop                              *)
(* --------------------------------------------------------------------- *)

Lemma lstrip_app_spaces (ws s : str) :
  Forall (fun c => isspace c = true) ws -> lstrip (ws ++ s) = lstrip s.
Proof.
  induction 1 as [|c ws Hc _ IH]; simpl; [reflexivity|].
  rewrite Hc. exact IH.
Qed.

Lemma lstrip_spaces (ws : str) :
  Forall (fun c => isspace c = true) ws -> lstrip ws = [].
Proof.
  intros H. rewrite <- (app_nil_r ws). rewrite lstrip_app_spaces by exact H.
  reflexivity.
Qed.

Lemma rstrip_app_spaces (s ws : str) :
  Forall (fun c => isspace c = true) ws -> rstrip (s ++ ws) = rstrip s.
Proof.
  intros H. unfold rstrip. rewrite rev_app_distr.
  rewrite lstrip_app_spaces by (apply List.Forall_rev; exact H). reflexivity.
Qed.

Lemma strip_app_spaces_r (s ws : str) :
  Forall (fun c => isspace c = true) ws -> strip (s ++ ws) = strip s.
Proof.
  intros H. unfold strip. induction s as [|c s IH]; simpl.
  - rewrite (lstrip_spaces ws H). reflexivity.
  - destruct (isspace c); [exact IH|].
    apply (rstrip_app_spaces (c :: s) ws H).
Qed.

Lemma strip_padding (ws ws' s : str) :
  Forall (fun c => isspace c = true) ws ->
  Forall (fun c => isspace c = true) ws' ->
  strip (ws ++ s ++ ws') = strip s.
Proof.
  intros H H'. rewrite <- (strip_app_spaces_r s ws' H').
  unfold strip. rewrite lstrip_app_spaces by exact H. reflexivity.
Qed.

(** X5: whitespace around a line plays no part: a line padded on either
    side with whitespace gives the same record, and the same turn of the
    loop, as the line itself. *)
Theorem padding_is_ignored (ws ws' line : str) :
  Forall (fun c => isspace c = true) ws ->
  Forall (fun c => isspace c = true) ws' ->
  parse_line (ws ++ line ++ ws') = parse_line line
  /\ forall acc, loop_body acc (ws ++ line ++ ws') = loop_body acc line.
Proof.
  intros H H'.
  assert (Hparse : parse_line (ws ++ line ++ ws') = parse_line line).
  { unfold parse_line. rewrite (strip_padding ws ws' line H H'). reflexivity. }
  split; [exact Hparse|].
  intros acc. rewrite !loop_body_stages, Hparse. reflexivity.
Qed.

Lemma padding_is_ignored_witness :
  parse_line (lit "   " ++ lit "* alpha core built" ++ [9%N; 32%N; 160%N])
  = parse_line (lit "* alpha core built")
  /\ forall acc,
       loop_body acc (lit "   " ++ lit "* alpha core built" ++ [9%N; 32%N; 160%N])
       = loop_body acc (lit "* alpha core built").
Proof.
  apply (padding_is_ignored (lit "   ") [9%N; 32%N; 160%N]
           (lit "* alpha core built")).
  - repeat constructor.
  - repeat constructor.
Defined.

Lemma split_from_tokens (s : str) :
  forall cur, Forall (fun c => isspace c = false) cur ->
              Forall is_token (split_from cur s).
Proof.
  assert (Hrev : forall cur, cur <> [] ->
                   Forall (fun c => isspace c = false) cur ->
                   is_token (rev cur)).
  { intros cur Hne Hcur. split.
    - intros Hnil. apply Hne. rewrite <- (rev_involutive cur), Hnil.
      reflexivity.
    - apply List.Forall_rev. exact Hcur. }
  induction s as [|c s IH]; intros cur Hcur; simpl.
  - destruct cur as [|x cur]; [constructor|].
    constructor; [apply Hrev; [discriminate | exact Hcur] | constructor].
  - destruct (isspace c) eqn:Hc.
    + destruct cur as [|x cur]; [apply IH; constructor|].
      constructor; [apply Hrev; [discriminate | exact Hcur]|].
      apply IH. constructor.
    + apply IH. constructor; assumption.
Qed.

Lemma item_token (parts : list str) (i : nat) :
  Forall is_token parts -> i < length parts -> is_token (item parts i).
Proof.
  intros Hall Hi. unfold item.
  rewrite List.Forall_forall in Hall. apply Hall. apply nth_In. exact Hi.
Qed.

Lemma parse_line_tokens (line : str) (r : SkillRecord) :
  parse_line line = Some r -> is_token (name r) /\ is_token (origin r).
Proof.
  rewrite parse_line_row. destruct (data_row line) eqn:Hrow; [|discriminate].
  intros [= <-]. unfold data_row in Hrow.
  rewrite !andb_true_iff in Hrow. destruct Hrow as (_ & Hlen).
  apply Nat.leb_le in Hlen.
  assert (Hall : Forall is_token (tokens line)).
  { unfold tokens, split. apply split_from_tokens. constructor. }
  split; apply item_token; simpl; try exact Hall; lia.
Qed.

(** X6: every name the loop selects is a token: it is not empty and holds
    no whitespace, so each export command ends in one such argument. *)
Theorem selected_names_are_tokens (text : str) :
  Forall is_token (select_skills text)
  /\ (forall skill, In skill (select_skills text) ->
        exists line, In line (splitlines text)
                     /\ item (tokens line) 1 = skill
                     /\ item (tokens line) 3 = lit "built").
Proof.
  unfold select_skills. rewrite fold_loop_body. simpl.
  assert (Hin : forall skill,
             In skill (map name (origin_filter (omap parse_line (splitlines text)))) ->
             exists line r, In line (splitlines text)
                            /\ parse_line line = Some r
                            /\ name r = skill /\ origin r = lit "built").
  { intros skill Hskill. apply in_map_iff in Hskill.
    destruct Hskill as (r & <- & Hr). apply origin_filter_In in Hr.
    destruct Hr as [Hr Hbuilt]. apply list_elem_of_In in Hr.
    apply list_elem_of_omap in Hr. destruct Hr as (line & Hline & Hparse).
    exists line, r. split; [apply list_elem_of_In; exact Hline|].
    split; [exact Hparse|]. split; [reflexivity | exact Hbuilt]. }
  split.
  - apply List.Forall_forall. intros skill Hskill.
    destruct (Hin skill Hskill) as (line & r & _ & Hparse & <- & _).
    apply (parse_line_tokens line r Hparse).
  - intros skill Hskill.
    destruct (Hin skill Hskill) as (line & r & Hline & Hparse & Hname & Hbuilt).
    exists line. split; [exact Hline|].
    rewrite parse_line_row in Hparse. destruct (data_row line); [|discriminate].
    injection Hparse as <-. split; [exact Hname | exact Hbuilt].
Qed.

Lemma selected_names_are_tokens_witness :
  Forall is_token (select_skills scenario_listing)
  /\ exists line, In line (splitlines scenario_listing)
                  /\ item (tokens line) 1 = lit "gamma"
                  /\ item (tokens line) 3 = lit "built".
Proof.
  destruct (selected_names_are_tokens scenario_listing) as [Hall Hin].
  split; [exact Hall|]. apply Hin. vm_compute. right. left. reflexivity.
Defined.

(* splitlines on two texts joined by a line boundary that does not merge
   with the start of the second text into \r\n: the lines of the first,
   then the lines of the second, with at most one empty line between them
   (when the first text is empty or already ends at a boundary). *)
Lemma splitlines_from_join (sep : char) (b : str) (n : nat) :
  islinebreak sep = true ->
  (sep = CR -> forall b', b <> LF :: b') ->
  forall a cur, length a <= n ->
    exists pad, (pad = [] \/ pad = [[]])
      /\ splitlines_from cur (a ++ sep :: b)
         = splitlines_from cur a ++ pad ++ splitlines_from [] b.
Proof.
  intros Hsep Hcr.
  assert (Hbase : forall cur,
            splitlines_from cur (sep :: b) = rev cur :: splitlines_from [] b).
  { intros cur. cbn [splitlines_from]. rewrite Hsep.
    destruct b as [|c' b'']; [reflexivity|].
    destruct ((sep =? CR)%N && (c' =? LF)%N) eqn:E; [|reflexivity].
    exfalso. apply andb_true_iff in E. destruct E as [E1 E2].
    apply N.eqb_eq in E1. apply N.eqb_eq in E2. subst c'.
    apply (Hcr E1 b''). reflexivity. }
  assert (Hnil : forall cur,
            exists pad, (pad = [] \/ pad = [[]])
              /\ splitlines_from cur (sep :: b)
                 = splitlines_from cur [] ++ pad ++ splitlines_from [] b).
  { intros cur. rewrite Hbase. destruct cur as [|x cur].
    + exists [[]]. split; [right; reflexivity | reflexivity].
    + exists []. split; [left; reflexivity | reflexivity]. }
  induction n as [|n IH]; intros a cur Hlen.
  - destruct a; [|simpl in Hlen; lia]. apply Hnil.
  - destruct a as [|c a]; [apply Hnil|].
    simpl in Hlen. cbn [app splitlines_from].
    destruct (islinebreak c) eqn:Hc.
    + destruct a as [|c' a].
      * cbn [app]. destruct ((c =? CR)%N && (sep =? LF)%N) eqn:Hmerge.
        -- exists []. split; [left; reflexivity | reflexivity].
        -- exists [[]]. split; [right; reflexivity|].
           rewrite (Hbase []). reflexivity.
      * cbn [app]. destruct ((c =? CR)%N && (c' =? LF)%N).
        -- destruct (IH a [] ltac:(simpl in Hlen; lia)) as (pad & Hpad & ->).
           exists pad. split; [exact Hpad | reflexivity].
        -- destruct (IH (c' :: a) [] ltac:(simpl in Hlen |- *; lia))
             as (pad & Hpad & Heq).
           cbn [app] in Heq. rewrite Heq.
           exists pad. split; [exact Hpad | reflexivity].
    + apply IH. lia.
Qed.

Lemma origin_filter_app (rs1 rs2 : list SkillRecord) :
  origin_filter (rs1 ++ rs2) = origin_filter rs1 ++ origin_filter rs2.
Proof. unfold origin_filter. apply List.filter_app. Qed.

Lemma select_skills_boundary (sep : char) (a b : str) :
  islinebreak sep = true ->
  (sep = CR -> forall b', b <> LF :: b') ->
  select_skills (a ++ sep :: b) = select_skills a ++ select_skills b.
Proof.
  intros Hsep Hcr. unfold select_skills, splitlines. rewrite !fold_loop_body.
  cbn [app].
  destruct (splitlines_from_join sep b (length a) Hsep Hcr a [] (Nat.le_refl _))
    as (pad & Hpad & ->).
  rewrite !omap_app, !origin_filter_app, !map_app.
  destruct Hpad as [-> | ->]; reflexivity.
Qed.

Lemma select_skills_crlf (a b : str) :
  select_skills (a ++ CR :: LF :: b) = select_skills a ++ select_skills b.
Proof.
  change (a ++ CR :: LF :: b) with (a ++ [CR] ++ LF :: b).
  rewrite app_assoc.
  rewrite (select_skills_boundary LF (a ++ [CR]) b eq_refl)
    by (intros H; discriminate H).
  rewrite (select_skills_boundary CR a [] eq_refl) by (intros _ b' H; discriminate H).
  rewrite app_nil_r. reflexivity.
Qed.

(** X7: listings compose, whatever ends their lines: the skills selected
    from two texts joined by a line boundary (any one boundary character
    of splitlines, or \r\n) are the skills selected from the first
    followed by the skills selected from the second. *)
Theorem select_skills_join (a b : str) :
  (forall sep, islinebreak sep = true ->
     select_skills (a ++ [sep] ++ b) = select_skills a ++ select_skills b)
  /\ select_skills (a ++ [CR; LF] ++ b) = select_skills a ++ select_skills b.
Proof.
  split; [|apply select_skills_crlf].
  intros sep Hsep. cbn [app].
  destruct (N.eq_dec sep CR) as [->|Hne].
  - destruct b as [|c b'].
    + apply select_skills_boundary; [exact Hsep|]. intros _ b' H. discriminate H.
    + destruct (N.eq_dec c LF) as [->|Hc].
      * rewrite select_skills_crlf.
        change (LF :: b') with ([] ++ LF :: b').
        rewrite (select_skills_boundary LF [] b' eq_refl)
          by (intros H; discriminate H).
        reflexivity.
      * apply select_skills_boundary; [exact Hsep|].
        intros _ b'' [= -> _]. apply Hc. reflexivity.
  - apply select_skills_boundary; [exact Hsep|]. intros ->. contradiction.
Qed.

Lemma select_skills_join_witness :
  select_skills (lit "* alpha core built" ++ [8232%N] ++ lit "* gamma tool built")
  = select_skills (lit "* alpha core built")
    ++ select_skills (lit "* gamma tool built")
  /\ select_skills (lit "* alpha core built" ++ [CR; LF] ++ lit "* gamma tool built")
     = [lit "alpha"; lit "gamma"].
Proof.
  destruct (select_skills_join (lit "* alpha core built")
              (lit "* gamma tool built")) as [Hsep Hcrlf].
  split; [apply Hsep; reflexivity | exact Hcrlf].
Defined.

Lemma splitlines_from_one_line (row : str) :
  Forall (fun c => islinebreak c = false) row ->
  forall cur, splitlines_from cur row
              = match rev cur ++ row with [] => [] | _ :: _ => [rev cur ++ row] end.
Proof.
  induction 1 as [|c row Hc _ IH]; intros cur; simpl.
  - rewrite app_nil_r. destruct cur as [|x cur]; [reflexivity|].
    destruct (rev (x :: cur)) eqn:Hrev; [|reflexivity].
    apply (f_equal (@length _)) in Hrev. rewrite length_rev in Hrev.
    discriminate.
  - rewrite Hc, IH. simpl. rewrite <- app_assoc. reflexivity.
Qed.

Lemma select_skills_one_line (row : str) :
  Forall (fun c => islinebreak c = false) row ->
  select_skills row = loop_body [] row.
Proof.
  intros H. unfold select_skills, splitlines.
  rewrite (splitlines_from_one_line row H []). simpl.
  destruct row; reflexivity.
Qed.

(** X8: for rows that hold no line boundary, printed one per line, the
    loop sees exactly those rows: the skills selected from the text are
    the names of the rows that parse to a record of origin built, in the
    order of the rows. *)
Theorem select_skills_unlines (rows : list str) :
  Forall (Forall (fun c => islinebreak c = false)) rows ->
  select_skills (unlines rows)
  = map name (origin_filter (omap parse_line rows)).
Proof.
  intros Hrows. rewrite <- (app_nil_l (map name _)), <- fold_loop_body.
  induction Hrows as [|row rows Hrow _ IH].
  - reflexivity.
  - change (unlines (row :: rows)) with ((row ++ [LF]) ++ unlines rows).
    rewrite <- app_assoc. cbn [app].
    rewrite (select_skills_boundary LF row (unlines rows) eq_refl)
      by (intros H; discriminate H).
    rewrite IH.
    rewrite (select_skills_one_line row Hrow).
    cbn [fold_left]. rewrite (fold_loop_body rows (loop_body [] row)).
    rewrite (fold_loop_body rows []). reflexivity.
Qed.

Lemma select_skills_unlines_witness :
  select_skills
    (unlines [lit "Cratos Skills"; lit "* alpha core built"; lit "* delta core";
              lit "* beta core custom"; []; lit "* gamma tool built v2"])
  = map name
      (origin_filter
         (omap parse_line
            [lit "Cratos Skills"; lit "* alpha core built"; lit "* delta core";
             lit "* beta core custom"; []; lit "* gamma tool built v2"])).
Proof.
  apply (select_skills_unlines
           [lit "Cratos Skills"; lit "* alpha core built"; lit "* delta core";
            lit "* beta core custom"; []; lit "* gamma tool built v2"]).
  repeat constructor.
Defined.

(* --------------------------------------------------------------------- *)
(* Further properties of the runs of main                                *)
(* --------------------------------------------------------------------- *)

Section WholeRuns.

Variable World : Type.
Variable spawn : list str -> World -> CompletedProcess * World.

Lemma invocations_print (text : str) (l : list Event) :
  invocations (Print text :: l) = invocations l.
Proof. reflexivity. Qed.

Lemma invocations_run (argv : list str) check r (l : list Event) :
  invocations (Run argv check r :: l) = argv :: invocations l.
Proof. reflexivity. Qed.

Lemma lines_of_print (text : str) (l : list Event) :
  lines_of (Print text :: l) = text :: lines_of l.
Proof. reflexivity. Qed.

Lemma lines_of_run (argv : list str) check r (l : list Event) :
  lines_of (Run argv check r :: l) = lines_of l.
Proof. reflexivity. Qed.

Lemma export_loop_all_pass (batch : list str) :
  forall st : State World,
    Forall (fun rc => rc = 0%Z)
           (statuses spawn (map export_cmd batch) (world st)) ->
    exists st',
      export_loop spawn batch st = (Ok tt, st')
      /\ invocations (log st') = invocations (log st) ++ map export_cmd batch
      /\ lines_of (log st') = lines_of (log st) ++ map exporting_line batch
      /\ world st' = world_after spawn (map export_cmd batch) (world st).
Proof.
  induction batch as [|s batch IH]; intros st Hall.
  - exists st. simpl. rewrite !app_nil_r. repeat split; reflexivity.
  - cbn [map statuses] in Hall. inversion Hall as [|rc rcs H0 Hrest]; subst.
    set (st1 := {| world := world st;
                   log := log st ++ [Print (exporting_line s)] |}).
    set (st2 := {| world := (spawn (export_cmd s) (world st)).2;
                   log := log st1 ++ [Run (export_cmd s) true
                                        (spawn (export_cmd s) (world st)).1] |}).
    destruct (IH st2 Hrest) as (st' & Hrun & Hinv & Hlines & Hworld).
    exists st'. split; [|split; [|split]].
    + rewrite export_loop_cons. fold st1.
      erewrite bind_ok
        by (apply (subprocess_run_checked_passes _ spawn (export_cmd s) st1);
            exact H0).
      exact Hrun.
    + rewrite Hinv. unfold st2, st1. cbn [log map].
      rewrite !invocations_app. simpl. rewrite app_nil_r, <- app_assoc.
      reflexivity.
    + rewrite Hlines. unfold st2, st1. cbn [log map].
      rewrite !lines_of_app. simpl. rewrite app_nil_r, <- app_assoc.
      reflexivity.
    + rewrite Hworld. reflexivity.
Qed.

Lemma export_loop_prefix (batch : list str) :
  forall st : State World,
    exists n, n <= length batch
      /\ invocations (log (export_loop spawn batch st).2)
         = invocations (log st) ++ map export_cmd (take n batch).
Proof.
  induction batch as [|s batch IH]; intros st.
  - exists 0. simpl. rewrite app_nil_r. split; [lia | reflexivity].
  - rewrite export_loop_cons.
    set (st1 := {| world := world st;
                   log := log st ++ [Print (exporting_line s)] |}).
    assert (Hst1 : invocations (log st1) = invocations (log st)).
    { unfold st1. cbn [log]. rewrite invocations_app. simpl.
      apply app_nil_r. }
    destruct (Z.eq_dec (returncode (spawn (export_cmd s) (world st1)).1) 0%Z)
      as [H0|H0].
    + erewrite bind_ok
        by (apply (subprocess_run_checked_passes _ spawn (export_cmd s) st1);
            exact H0).
      match goal with |- context [export_loop spawn batch ?st2] =>
        destruct (IH st2) as (n & Hn & Heq) end.
      exists (S n). split; [simpl; lia|]. rewrite Heq. cbn [log].
      rewrite invocations_app, Hst1. simpl. rewrite <- app_assoc. reflexivity.
    + erewrite bind_raise
        by (apply (subprocess_run_checked_fails _ spawn (export_cmd s) st1);
            exact H0).
      exists 1. split; [simpl; lia|]. cbn [snd log].
      rewrite invocations_app, Hst1. reflexivity.
Qed.

(** X1: when the build leaves with a non-zero status, the run is the
    progress line and the build and nothing more: the listing command is
    never run, no skill is exported, and the process ends with status 1. *)
Theorem build_failure_stops_run (w : World) :
  returncode (spawn build_cmd w).1 <> 0%Z ->
  script spawn w
  = (1%Z, [Print (lit "Building Cratos...");
           Run build_cmd true (spawn build_cmd w).1])
  /\ invocations (script spawn w).2 = [build_cmd].
Proof.
  intros Hb. rewrite script_eq.
  rewrite (main_build_fails _ spawn {| world := w; log := [] |} Hb).
  split; reflexivity.
Qed.

(** X2: when the build and the listing succeed and every export of the
    selected skills succeeds, the run is the build, the listing and one
    export per selected skill, in the order of the listing; it prints the
    two progress lines, the count of selected skills, one line per export
    and the closing line; and the process ends with status 0. *)
Theorem successful_run (w : World) :
  returncode (spawn build_cmd w).1 = 0%Z ->
  returncode (spawn list_cmd (spawn build_cmd w).2).1 = 0%Z ->
  Forall (fun rc => rc = 0%Z)
    (statuses spawn
       (map export_cmd
          (select_skills (stdout (spawn list_cmd (spawn build_cmd w).2).1)))
       (spawn list_cmd (spawn build_cmd w).2).2) ->
  (script spawn w).1 = 0%Z
  /\ invocations (script spawn w).2
     = build_cmd :: list_cmd
       :: map export_cmd
            (select_skills (stdout (spawn list_cmd (spawn build_cmd w).2).1))
  /\ lines_of (script spawn w).2
     = [lit "Building Cratos..."; lit "Fetching active skills...";
        found_line
          (length (select_skills
                     (stdout (spawn list_cmd (spawn build_cmd w).2).1)))]
       ++ map exporting_line
            (select_skills (stdout (spawn list_cmd (spawn build_cmd w).2).1))
       ++ [lit "Batch export complete."].
Proof.
  intros Hb Hl Hall. rewrite script_eq. cbn [fst snd].
  rewrite (main_list_passes _ spawn {| world := w; log := [] |} Hb Hl).
  cbn [world log app].
  set (batch := select_skills
                  (stdout (spawn list_cmd (spawn build_cmd w).2).1)) in *.
  rewrite export_phase_unfold. cbn [world log].
  match goal with |- context [bind (export_loop spawn batch) _ ?st1] =>
    destruct (export_loop_all_pass batch st1 Hall)
      as (st' & Hrun & Hinv & Hlines & _);
    erewrite bind_ok by exact Hrun
  end.
  unfold print. cbn [fst snd log exit_status].
  rewrite invocations_app, lines_of_app, Hinv, Hlines. cbn [log].
  rewrite !invocations_app, !lines_of_app.
  rewrite ?invocations_print, ?invocations_run, ?lines_of_print, ?lines_of_run.
  change (invocations []) with (@nil (list str)).
  change (lines_of []) with (@nil str).
  split; [reflexivity|]. split.
  - rewrite !app_nil_r. reflexivity.
  - rewrite <- !app_assoc. reflexivity.
Qed.

(** X3: when the build and the listing succeed, whatever the exports
    return, the commands run are the build, the listing and then the
    exports of an initial part of the selected skills, in the order and
    with the repetitions of the listing: no skill is exported ahead of one
    selected before it, and none that the listing did not select. *)
Theorem exports_follow_the_batch (w : World) :
  returncode (spawn build_cmd w).1 = 0%Z ->
  returncode (spawn list_cmd (spawn build_cmd w).2).1 = 0%Z ->
  exists n,
    n <= length (select_skills
                   (stdout (spawn list_cmd (spawn build_cmd w).2).1))
    /\ invocations (script spawn w).2
       = build_cmd :: list_cmd
         :: map export_cmd
              (take n (select_skills
                         (stdout (spawn list_cmd (spawn build_cmd w).2).1))).
Proof.
  intros Hb Hl. rewrite script_eq. cbn [snd].
  rewrite (main_list_passes _ spawn {| world := w; log := [] |} Hb Hl).
  cbn [world log app].
  set (batch := select_skills
                  (stdout (spawn list_cmd (spawn build_cmd w).2).1)).
  rewrite export_phase_unfold. cbn [world log].
  match goal with |- context [bind (export_loop spawn batch) _ ?st1] =>
    destruct (export_loop_prefix batch st1) as (n & Hn & Hinv);
    assert (Hbind :
      invocations (log (bind (export_loop spawn batch)
                          (fun _ => print (lit "Batch export complete."))
                          st1).2)
      = invocations (log (export_loop spawn batch st1).2))
  end.
  { unfold bind. destruct (export_loop spawn batch _) as [[[]|e] st'].
    - unfold print. cbn [snd log]. rewrite invocations_app.
      rewrite invocations_print. apply app_nil_r.
    - reflexivity. }
  exists n. split; [exact Hn|]. rewrite Hbind, Hinv. cbn [log].
  rewrite !invocations_app.
  rewrite ?invocations_print, ?invocations_run.
  change (invocations []) with (@nil (list str)).
  rewrite app_nil_r. reflexivity.
Qed.

(** X9: when the build and the listing succeed and the listing holds no
    row of origin built (an empty listing among them), no export is run:
    the run announces 0 skills, prints the closing line and ends with
    status 0. *)
Theorem nothing_to_export (w : World) :
  returncode (spawn build_cmd w).1 = 0%Z ->
  returncode (spawn list_cmd (spawn build_cmd w).2).1 = 0%Z ->
  select_skills (stdout (spawn list_cmd (spawn build_cmd w).2).1) = [] ->
  script spawn w
  = (0%Z,
     [Print (lit "Building Cratos...");
      Run build_cmd true (spawn build_cmd w).1;
      Print (lit "Fetching active skills...");
      Run list_cmd false (spawn list_cmd (spawn build_cmd w).2).1;
      Print (lit "Found 0 builtin skills to export.");
      Print (lit "Batch export complete.")]).
Proof.
  intros Hb Hl Hnone. rewrite script_eq.
  rewrite (main_list_passes _ spawn {| world := w; log := [] |} Hb Hl).
  cbn [world log app]. rewrite Hnone. reflexivity.
Qed.

End WholeRuns.

Lemma build_failure_stops_run_witness :
  script Scripted.spawn
    [Scripted.done_with 101;
     {| returncode := 0; stdout := scenario_listing; stderr := [] |}]
  = (1%Z, [Print (lit "Building Cratos...");
           Run build_cmd true (Scripted.done_with 101)])
  /\ invocations
       (script Scripted.spawn
          [Scripted.done_with 101;
           {| returncode := 0; stdout := scenario_listing; stderr := [] |}]).2
     = [build_cmd].
Proof.
  apply (build_failure_stops_run Scripted.World Scripted.spawn
           [Scripted.done_with 101;
            {| returncode := 0; stdout := scenario_listing; stderr := [] |}]).
  simpl. lia.
Defined.

Lemma successful_run_witness :
  (script Scripted.spawn
     [Scripted.done_with 0;
      {| returncode := 0; stdout := scenario_listing; stderr := [] |}]).1 = 0%Z
  /\ invocations
       (script Scripted.spawn
          [Scripted.done_with 0;
           {| returncode := 0; stdout := scenario_listing; stderr := [] |}]).2
     = [build_cmd; list_cmd; export_cmd (lit "alpha"); export_cmd (lit "gamma")]
  /\ lines_of
       (script Scripted.spawn
          [Scripted.done_with 0;
           {| returncode := 0; stdout := scenario_listing; stderr := [] |}]).2
     = [lit "Building Cratos..."; lit "Fetching active skills...";
        lit "Found 2 builtin skills to export.";
        lit "Exporting alpha..."; lit "Exporting gamma...";
        lit "Batch export complete."].
Proof.
  apply (successful_run Scripted.World Scripted.spawn
           [Scripted.done_with 0;
            {| returncode := 0; stdout := scenario_listing; stderr := [] |}]).
  - reflexivity.
  - reflexivity.
  - vm_compute. repeat constructor.
Defined.

Lemma nothing_to_export_witness :
  script Scripted.spawn
    [Scripted.done_with 0;
     {| returncode := 0;
        stdout := lit "Cratos Skills" ++ [LF] ++ lit "* beta core custom";
        stderr := [] |}]
  = (0%Z,
     [Print (lit "Building Cratos...");
      Run build_cmd true (Scripted.done_with 0);
      Print (lit "Fetching active skills...");
      Run list_cmd false
        {| returncode := 0;
           stdout := lit "Cratos Skills" ++ [LF] ++ lit "* beta core custom";
           stderr := [] |};
      Print (lit "Found 0 builtin skills to export.");
      Print (lit "Batch export complete.")]).
Proof.
  apply (nothing_to_export Scripted.World Scripted.spawn
           [Scripted.done_with 0;
            {| returncode := 0;
               stdout := lit "Cratos Skills" ++ [LF] ++ lit "* beta core custom";
               stderr := [] |}]); reflexivity.
Defined.

Lemma exports_follow_the_batch_witness :
  exists n,
    n <= length (select_skills scenario_listing)
    /\ invocations
         (script Scripted.spawn
            [Scripted.done_with 0;
             {| returncode := 0; stdout := scenario_listing; stderr := [] |};
             Scripted.done_with 9]).2
       = build_cmd :: list_cmd
         :: map export_cmd (take n (select_skills scenario_listing)).
Proof.
  apply (exports_follow_the_batch Scripted.World Scripted.spawn
           [Scripted.done_with 0;
            {| returncode := 0; stdout := scenario_listing; stderr := [] |};
            Scripted.done_with 9]); reflexivity.
Defined.
